(** * Kernel build-and-publish action: orchestration logic

    A shallow embedding of the action's entry point (the TypeScript
    program whose [run] function installs Nix, configures Cachix, builds
    or runs a kernel flake target, copies the result, uploads it as a
    workflow artifact and optionally publishes it to the Hugging Face
    hub), together with the properties of its sequencing and decision
    logic.

    The repository holds the entry point twice: once with execution
    modes, sandbox policy and the direct upload with the kernels CLI,
    and once, in [src/index.ts], without them.  The first is embedded at
    top level and is the subject of the main theorems; the second is
    embedded in module [IndexTs], and the properties that concern code
    present in both are proved of it as well, at the end.

    The program is written against the GitHub Actions toolkit
    ([core], [exec], [artifact], [glob]) and Node's [fs] and [path].
    Those collaborators are not modelled: every call to one of them is
    answered by an oracle (a [World]) and recorded, with its answer, in
    a chronological trace of [Event]s.  The embedded functions are
    computations in a small trace-and-exception monad, so they can be
    evaluated on a concrete world. *)

From Stdlib Require Import String Ascii List Bool.
From stdpp Require Import base option gmap strings.
Import ListNotations.

(** String literals are read in [string_scope]; [++] stays the append of
    lists, and strings are appended with stdpp's [+:+]. *)
Local Open Scope string_scope.
Local Open Scope list_scope.

(** ** JavaScript values used by the program *)

(** What a [throw] can carry: an [Error] object with its message, or any
    other value (the [catch] of [run] tells the two apart with
    [instanceof Error]). *)
Inductive Thrown : Type :=
| JsError (message : string)
| JsOther.

(** Truthiness of a JavaScript string: every string but the empty one. *)
Definition truthy (s : string) : bool :=
  negb (String.eqb s "").

(** [a || d] on strings. *)
Definition or_default (a d : string) : string :=
  if truthy a then a else d.

(** One-character strings that cannot be written inside a literal. *)
Definition nl : string := String (ascii_of_nat 10) EmptyString.
Definition dq : string := String (ascii_of_nat 34) EmptyString.

(** ** The record of inputs *)

(** The TypeScript type ['build' | 'run']. *)
Inductive NixCommand : Type :=
| Build
| Run.

Definition NixCommand_to_string (c : NixCommand) : string :=
  match c with
  | Build => "build"
  | Run => "run"
  end.

Record ActionInputs : Type := {
  kernelPath : string;
  buildTarget : string;
  nixCommand : NixCommand;
  verbose : bool;
  artifactName : string;
  uploadArtifact : bool;
  cachixName : string;
  cachixAuthToken : string;
  nixMaxJobs : string;
  nixCores : string;
  sandboxMode : string;
  extraNixConf : string;
  hfToken : string;
  hfRepo : string;
  publish : bool;
}.

(** ** Collaborators, events and worlds *)

(** The options object handed to [exec.exec]: a working directory and an
    environment, each of them optional. *)
Record ExecOptions : Type := {
  opt_cwd : option string;
  opt_env : option (gmap string string);
}.

Definition no_options : ExecOptions :=
  {| opt_cwd := None; opt_env := None |}.

(** Everything the program does to the outside, in the order it does it.
    A call that can fail, or that returns something, carries its
    answer. *)
Inductive Event : Type :=
| Info (msg : string)
| Warning (msg : string)
| StartGroup (name : string)
| EndGroup
| AddPath (p : string)
| SetOutput (name value : string)
| SetFailed (msg : string)
| Exec (cmd : string) (args : list string) (opts : ExecOptions)
       (res : option Thrown)
| ExistsSync (p : string) (res : bool)
| GlobCreate (pattern : string) (res : option Thrown)
| GlobberGlob (pattern : string) (res : Thrown + list string)
| UploadArtifact (name : string) (files : list string) (root : string)
                 (res : option Thrown).

Definition Trace : Type := list Event.

(** A world fixes the raw inputs, the process environment, Node's path
    functions, and the answer of every collaborator.  An answer may
    depend on all that happened before the call (the trace so far), so a
    tool may succeed once and fail later.  For the calls that can fail,
    [None] means the promise resolved and [Some t] that it rejected
    with [t]. *)
Record World : Type := {
  getInput : string -> string;
  process_env : gmap string string;
  path_resolve : string -> string;
  path_join : string -> string -> string;
  exec_answer : Trace -> string -> list string -> ExecOptions -> option Thrown;
  existsSync_answer : Trace -> string -> bool;
  globCreate_answer : Trace -> string -> option Thrown;
  globberGlob_answer : Trace -> string -> Thrown + list string;
  uploadArtifact_answer :
    Trace -> string -> list string -> string -> option Thrown;
}.

(** ** The monad of the program *)

(** A computation reads the world, extends the trace, and either returns
    a value or throws. *)
Definition M (A : Type) : Type :=
  World -> Trace -> (Thrown + A) * Trace.

Definition ret {A : Type} (a : A) : M A :=
  fun _ tr => (inr a, tr).

Definition throw {A : Type} (t : Thrown) : M A :=
  fun _ tr => (inl t, tr).

Definition bind {A B : Type} (m : M A) (k : A -> M B) : M B :=
  fun w tr =>
    match m w tr with
    | (inl t, tr') => (inl t, tr')
    | (inr a, tr') => k a w tr'
    end.

(** [try { m } catch (error) { h error }] *)
Definition try_catch {A : Type} (m : M A) (h : Thrown -> M A) : M A :=
  fun w tr =>
    match m w tr with
    | (inl t, tr') => h t w tr'
    | (inr a, tr') => (inr a, tr')
    end.

(** The monad is registered with stdpp's classes, so the program below
    is written with [x ← m; k] and [m;; k]. *)
#[export] Instance M_ret : MRet M := @ret.
#[export] Instance M_bind : MBind M := fun A B k m => bind m k.

Definition emit (e : Event) : M unit :=
  fun _ tr => (inr tt, tr ++ [e]).

Definition ask {A : Type} (f : World -> A) : M A :=
  fun w tr => (inr (f w), tr).

(** A call whose promise resolves to nothing or rejects. *)
Definition call (answer : World -> Trace -> option Thrown)
    (record : option Thrown -> Event) : M unit :=
  fun w tr =>
    let r := answer w tr in
    (match r with Some t => inl t | None => inr tt end, tr ++ [record r]).

Definition when (b : bool) (m : M unit) : M unit :=
  if b then m else ret tt.

(** *** The toolkit and Node functions the program calls *)

Module core.
Definition info (msg : string) : M unit := emit (Info msg).
Definition warning (msg : string) : M unit := emit (Warning msg).
Definition startGroup (name : string) : M unit := emit (StartGroup name).
Definition endGroup : M unit := emit EndGroup.
Definition addPath (p : string) : M unit := emit (AddPath p).
Definition setOutput (name value : string) : M unit :=
  emit (SetOutput name value).
Definition setFailed (msg : string) : M unit := emit (SetFailed msg).
End core.

Module exec.
Definition exec (cmd : string) (args : list string) (opts : ExecOptions)
  : M unit :=
  call (fun w tr => exec_answer w tr cmd args opts) (Exec cmd args opts).
End exec.

Module fs.
Definition existsSync (p : string) : M bool :=
  fun w tr =>
    let b := existsSync_answer w tr p in
    (inr b, tr ++ [ExistsSync p b]).
End fs.

Module glob.
(** [glob.create(pattern)]; the globber it resolves to is represented
    by its pattern. *)
Definition create (pattern : string) : M string :=
  call (fun w tr => globCreate_answer w tr pattern) (GlobCreate pattern);;
  ret pattern.

Definition glob (globber : string) : M (list string) :=
  fun w tr =>
    let r := globberGlob_answer w tr globber in
    (r, tr ++ [GlobberGlob globber r]).
End glob.

Module artifact.
(** [new DefaultArtifactClient().uploadArtifact(name, files, root)] *)
Definition uploadArtifact (name : string) (files : list string)
    (root : string) : M unit :=
  call (fun w tr => uploadArtifact_answer w tr name files root)
       (UploadArtifact name files root).
End artifact.

(** ** The program *)

(** [getInputs]: reads and defaults the fifteen inputs; the only
    validation is that of [nix-command], done first. *)
Definition getInputs : M ActionInputs :=
  raw ← ask getInput;
  let nixCommand_s := or_default (raw "nix-command") "build" in
  nc ← (if String.eqb nixCommand_s "build" then ret Build
         else if String.eqb nixCommand_s "run" then ret Run
         else throw (JsError ("Invalid nix-command: " +:+ nixCommand_s
                              +:+ ". Must be 'build' or 'run'.")));
  ret {|
    kernelPath := or_default (raw "kernel-path") ".";
    buildTarget := or_default (raw "build-target") "ci";
    nixCommand := nc;
    verbose := negb (String.eqb (raw "verbose") "false");
    artifactName := or_default (raw "artifact-name") "kernel";
    uploadArtifact := negb (String.eqb (raw "upload-artifact") "false");
    cachixName := or_default (raw "cachix-name") "huggingface";
    cachixAuthToken := or_default (raw "cachix-auth-token") "";
    nixMaxJobs := or_default (raw "nix-max-jobs") "4";
    nixCores := or_default (raw "nix-cores") "12";
    sandboxMode := or_default (raw "sandbox-mode") "fallback";
    extraNixConf := or_default (raw "extra-nix-conf") "";
    hfToken := or_default (raw "hf-token") "";
    hfRepo := or_default (raw "hf-repo") "";
    publish := String.eqb (raw "publish") "true";
  |}.

(** The [switch] of [installNix] on the sandbox mode; ['fallback'] falls
    through to the default case. *)
Definition sandboxConf (sandboxMode : string) : string :=
  if String.eqb sandboxMode "relaxed" then "sandbox = relaxed"
  else if String.eqb sandboxMode "true" then "sandbox = true"
  else if String.eqb sandboxMode "false" then "sandbox = false"
  else if String.eqb sandboxMode "fallback" then "sandbox-fallback = false"
  else "sandbox-fallback = false".

(** The configuration block passed to the installer with [--extra-conf]. *)
Definition extraConf (maxJobs cores sandboxMode extraNixConf : string)
  : string :=
  let base :=
    "max-jobs = " +:+ maxJobs +:+ nl +:+
    "cores = " +:+ cores +:+ nl +:+
    sandboxConf sandboxMode +:+ nl +:+
    "experimental-features = nix-command flakes" +:+ nl +:+
    "trusted-users = root runner" in
  if truthy extraNixConf then base +:+ nl +:+ extraNixConf else base.

Definition installNix (maxJobs cores sandboxMode extraNixConf : string)
  : M unit :=
  core.info "Installing Nix...";;
  exec.exec "curl"
    ["--proto"; "=https"; "--tlsv1.2"; "-sSf"; "-L";
     "https://install.determinate.systems/nix"; "-o";
     "/tmp/nix-installer.sh"] no_options;;
  exec.exec "sh"
    ["/tmp/nix-installer.sh"; "install"; "--no-confirm"; "--extra-conf";
     extraConf maxJobs cores sandboxMode extraNixConf] no_options;;
  core.addPath "/nix/var/nix/profiles/default/bin";;
  core.info "Nix installed successfully".

(** A template literal prints an unset environment variable as
    [undefined]. *)
Definition template_env (v : option string) : string :=
  default "undefined" v.

Definition setupCachix (name authToken : string) : M unit :=
  if negb (truthy name) then
    core.info "Skipping Cachix setup (no cache name provided)"
  else
    core.info ("Setting up Cachix cache: " +:+ name);;
    exec.exec "nix-env"
      ["-iA"; "cachix"; "-f"; "https://cachix.org/api/v1/install"]
      no_options;;
    env ← ask process_env;
    core.addPath (template_env (env !! "HOME") +:+ "/.nix-profile/bin");;
    when (truthy authToken)
      (exec.exec "cachix" ["authtoken"; authToken] no_options);;
    exec.exec "cachix" ["use"; name] no_options;;
    core.info "Cachix configured successfully".

(** The argument vector of the [nix] invocation of [buildKernel]. *)
Definition nix_args (buildTarget : string) (nixCommand : NixCommand)
    (verbose : bool) : list string :=
  [NixCommand_to_string nixCommand]
    ++ (if verbose then ["-L"] else [])
    ++ [".#" +:+ buildTarget].

Definition buildKernel (kernelPath buildTarget : string)
    (nixCommand : NixCommand) (verbose : bool) (hfRepo : string)
  : M (option string) :=
  core.info ((match nixCommand with Build => "Building" | Run => "Running" end)
             +:+ " kernel at " +:+ kernelPath
             +:+ " with target " +:+ buildTarget);;
  absoluteKernelPath ← ask (fun w => path_resolve w kernelPath);
  let args := nix_args buildTarget nixCommand verbose in
  env0 ← ask process_env;
  env ← (if truthy hfRepo then
           core.info ("Setting HF_REPO=" +:+ hfRepo);;
           mret (<["HF_REPO" := hfRepo]> env0)
         else mret env0);
  exec.exec "nix" args
    {| opt_cwd := Some absoluteKernelPath; opt_env := Some env |};;
  resultPath ← ask (fun w => path_join w absoluteKernelPath "result");
  found ← fs.existsSync resultPath;
  if negb found then
    match nixCommand with
    | Build => throw (JsError ("Build result not found at " +:+ resultPath))
    | Run =>
        core.info "No result directory found (expected for nix run commands that handle their own output)";;
        mret None
    end
  else
    core.info "Kernel built successfully";;
    mret (Some resultPath).

Definition copyKernel (resultPath artifactName : string) : M string :=
  let outputPath := artifactName +:+ "-output" in
  core.info ("Copying kernel from " +:+ resultPath +:+ " to " +:+ outputPath);;
  exec.exec "cp" ["-rL"; resultPath; outputPath] no_options;;
  core.info ("Kernel copied to " +:+ outputPath);;
  mret outputPath.

Definition uploadKernelArtifact (kernelOutputPath artifactName : string)
  : M unit :=
  core.info ("Uploading artifact: " +:+ artifactName);;
  globber ← glob.create (kernelOutputPath +:+ "/**/*");
  files ← glob.glob globber;
  artifact.uploadArtifact artifactName files kernelOutputPath;;
  core.info "Artifact uploaded successfully".

(** The Python program given to [python -c] by [publishToHuggingFace]. *)
Definition pythonScript (kernelOutputPath hfRepo hfToken : string) : string :=
  nl +:+ "from huggingface_hub import HfApi" +:+ nl +:+
  "import os" +:+ nl +:+
  nl +:+
  "api = HfApi(token=" +:+ dq +:+ hfToken +:+ dq +:+ ")" +:+ nl +:+
  "api.upload_folder(" +:+ nl +:+
  "    folder_path=" +:+ dq +:+ kernelOutputPath +:+ dq +:+ "," +:+ nl +:+
  "    repo_id=" +:+ dq +:+ hfRepo +:+ dq +:+ "," +:+ nl +:+
  "    repo_type=" +:+ dq +:+ "model" +:+ dq +:+ "," +:+ nl +:+
  ")" +:+ nl +:+
  "print(" +:+ dq +:+ "Successfully published to " +:+ hfRepo +:+ dq +:+ ")"
  +:+ nl.

Definition publishToHuggingFace (kernelOutputPath hfRepo hfToken : string)
  : M unit :=
  core.info ("Publishing to Hugging Face: " +:+ hfRepo);;
  exec.exec "pip" ["install"; "huggingface_hub"] no_options;;
  exec.exec "python" ["-c"; pythonScript kernelOutputPath hfRepo hfToken]
    no_options;;
  core.info "Published to Hugging Face successfully".

(** The argument vector of the direct upload with the kernels CLI. *)
Definition kernels_upload_args (hfRepo : string) : list string :=
  ["run"; ".#kernels"; "--"; "upload"; "--repo_id"; hfRepo; "."].

Definition uploadWithKernelsCli (kernelPath hfRepo : string) : M unit :=
  core.info ("Uploading to Kernel Hub: " +:+ hfRepo);;
  absoluteKernelPath ← ask (fun w => path_resolve w kernelPath);
  exec.exec "nix" (kernels_upload_args hfRepo)
    {| opt_cwd := Some absoluteKernelPath; opt_env := None |};;
  core.info ("Kernel uploaded to https://hf.co/" +:+ hfRepo).

(** The two decisions [run] takes before any stage. *)
Definition needsManualUpload (inputs : ActionInputs) : bool :=
  truthy (hfRepo inputs) && String.eqb (buildTarget inputs) "build-and-upload".

Definition effectiveTarget (inputs : ActionInputs) : string :=
  if needsManualUpload inputs then "build-and-copy" else buildTarget inputs.

(** The [try] block of [run] from its second statement on, for the
    inputs that [getInputs] returned. *)
Definition run_stages (inputs : ActionInputs) : M unit :=
  when (needsManualUpload inputs)
    (core.info ("hf-repo is set to " +:+ hfRepo inputs
                +:+ ", using build-and-copy + manual upload"));;
  let buildTarget' := effectiveTarget inputs in
  core.startGroup "Install Nix";;
  installNix (nixMaxJobs inputs) (nixCores inputs) (sandboxMode inputs)
    (extraNixConf inputs);;
  core.endGroup;;
  core.startGroup "Setup Cachix";;
  setupCachix (cachixName inputs) (cachixAuthToken inputs);;
  core.endGroup;;
  core.startGroup (match nixCommand inputs with
                   | Build => "Build Kernel"
                   | Run => "Run Kernel"
                   end);;
  resultPath ← buildKernel (kernelPath inputs) buildTarget'
                 (nixCommand inputs) (verbose inputs) (hfRepo inputs);
  core.endGroup;;
  if needsManualUpload inputs then
    core.startGroup "Upload to Kernel Hub";;
    uploadWithKernelsCli (kernelPath inputs) (hfRepo inputs);;
    core.endGroup;;
    core.setOutput "kernel-path" "";;
    core.setOutput "artifact-name" (artifactName inputs);;
    core.info "Action completed successfully!"
  else
    match resultPath with
    | None =>
        core.info "No result to copy/upload (nix run command handled output)";;
        core.setOutput "kernel-path" "";;
        core.setOutput "artifact-name" (artifactName inputs);;
        core.info "Action completed successfully!"
    | Some resultPath =>
        core.startGroup "Copy Kernel";;
        kernelOutputPath ← copyKernel resultPath (artifactName inputs);
        core.setOutput "kernel-path" kernelOutputPath;;
        core.setOutput "artifact-name" (artifactName inputs);;
        core.endGroup;;
        when (uploadArtifact inputs)
          (core.startGroup "Upload Artifact";;
           uploadKernelArtifact kernelOutputPath (artifactName inputs);;
           core.endGroup);;
        (if publish inputs && truthy (hfToken inputs) && truthy (hfRepo inputs)
         then
           core.startGroup "Publish to Hugging Face";;
           publishToHuggingFace kernelOutputPath (hfRepo inputs)
             (hfToken inputs);;
           core.endGroup
         else if publish inputs then
           core.warning "Publish requested but hf-token or hf-repo not provided. Skipping publish."
         else mret tt);;
        core.info "Action completed successfully!"
    end.

(** The body of the [try] block of [run]. *)
Definition run_body : M unit :=
  inputs ← getInputs;
  run_stages inputs.

(** The [catch] block of [run]. *)
Definition run_catch (error : Thrown) : M unit :=
  match error with
  | JsError message => core.setFailed message
  | JsOther => core.setFailed "An unexpected error occurred"
  end.

Definition run : M unit :=
  try_catch run_body run_catch.

(** The trace of one execution of the action, which starts from nothing. *)
Definition run_trace (w : World) : Trace :=
  snd (run w []).

(** The configuration of a world: what [getInputs] returns or throws
    there. *)
Definition resolved (w : World) : Thrown + ActionInputs :=
  fst (getInputs w []).

(** The message that the [catch] block reports for a thrown value. *)
Definition failure_message (error : Thrown) : string :=
  match error with
  | JsError message => message
  | JsOther => "An unexpected error occurred"
  end.

(** The trace of the action when its inputs resolve to [inputs]. *)
Definition run_from (inputs : ActionInputs) (w : World) : Trace :=
  snd (try_catch (run_stages inputs) run_catch w []).

(** The path that [buildKernel] checks. *)
Definition result_link (w : World) (kernelPath : string) : string :=
  path_join w (path_resolve w kernelPath) "result".

(** The warning of [run] for a publish request without credentials. *)
Definition publish_warning : string :=
  "Publish requested but hf-token or hf-repo not provided. Skipping publish.".

(** ** The program of [src/index.ts] *)

(** [src/index.ts] is the same entry point without execution modes,
    verbosity, sandbox policy, extra configuration and direct upload.
    [copyKernel], [uploadKernelArtifact] and [publishToHuggingFace] read
    the same in both files and are shared. *)
Module IndexTs.

Record ActionInputs : Type := {
  kernelPath : string;
  buildTarget : string;
  artifactName : string;
  uploadArtifact : bool;
  cachixName : string;
  cachixAuthToken : string;
  nixMaxJobs : string;
  nixCores : string;
  hfToken : string;
  hfRepo : string;
  publish : bool;
}.

Definition getInputs : M ActionInputs :=
  raw ← ask getInput;
  mret {|
    kernelPath := or_default (raw "kernel-path") ".";
    buildTarget :=
      or_default (raw "build-target")
        "redistributable.torch29-cxx11-cu126-x86_64-linux";
    artifactName := or_default (raw "artifact-name") "kernel";
    uploadArtifact := negb (String.eqb (raw "upload-artifact") "false");
    cachixName := or_default (raw "cachix-name") "huggingface";
    cachixAuthToken := or_default (raw "cachix-auth-token") "";
    nixMaxJobs := or_default (raw "nix-max-jobs") "4";
    nixCores := or_default (raw "nix-cores") "12";
    hfToken := or_default (raw "hf-token") "";
    hfRepo := or_default (raw "hf-repo") "";
    publish := String.eqb (raw "publish") "true";
  |}.

Definition extraConf (maxJobs cores : string) : string :=
  "max-jobs = " +:+ maxJobs +:+ nl +:+
  "cores = " +:+ cores +:+ nl +:+
  "sandbox-fallback = false" +:+ nl +:+
  "experimental-features = nix-command flakes".

Definition installNix (maxJobs cores : string) : M unit :=
  core.info "Installing Nix...";;
  exec.exec "curl"
    ["--proto"; "=https"; "--tlsv1.2"; "-sSf"; "-L";
     "https://install.determinate.systems/nix"; "-o";
     "/tmp/nix-installer.sh"] no_options;;
  exec.exec "sh"
    ["/tmp/nix-installer.sh"; "install"; "--no-confirm"; "--extra-conf";
     extraConf maxJobs cores] no_options;;
  core.addPath "/nix/var/nix/profiles/default/bin";;
  core.info "Nix installed successfully".

Definition setupCachix (name authToken : string) : M unit :=
  if negb (truthy name) then
    core.info "Skipping Cachix setup (no cache name provided)"
  else
    core.info ("Setting up Cachix cache: " +:+ name);;
    exec.exec "nix-env"
      ["-iA"; "cachix"; "-f"; "https://cachix.org/api/v1/install"]
      no_options;;
    when (truthy authToken)
      (exec.exec "cachix" ["authtoken"; authToken] no_options);;
    exec.exec "cachix" ["use"; name] no_options;;
    core.info "Cachix configured successfully".

Definition buildKernel (kernelPath buildTarget : string) : M string :=
  core.info ("Building kernel at " +:+ kernelPath
             +:+ " with target " +:+ buildTarget);;
  absoluteKernelPath ← ask (fun w => path_resolve w kernelPath);
  exec.exec "nix" ["build"; ".#" +:+ buildTarget]
    {| opt_cwd := Some absoluteKernelPath; opt_env := None |};;
  resultPath ← ask (fun w => path_join w absoluteKernelPath "result");
  found ← fs.existsSync resultPath;
  if negb found then
    throw (JsError ("Build result not found at " +:+ resultPath))
  else
    core.info "Kernel built successfully";;
    mret resultPath.

(** The [try] block of [run] after the inputs are read. *)
Definition run_stages (inputs : ActionInputs) : M unit :=
  core.startGroup "Install Nix";;
  installNix (nixMaxJobs inputs) (nixCores inputs);;
  core.endGroup;;
  core.startGroup "Setup Cachix";;
  setupCachix (cachixName inputs) (cachixAuthToken inputs);;
  core.endGroup;;
  core.startGroup "Build Kernel";;
  resultPath ← buildKernel (kernelPath inputs) (buildTarget inputs);
  core.endGroup;;
  core.startGroup "Copy Kernel";;
  kernelOutputPath ← copyKernel resultPath (artifactName inputs);
  core.setOutput "kernel-path" kernelOutputPath;;
  core.setOutput "artifact-name" (artifactName inputs);;
  core.endGroup;;
  when (uploadArtifact inputs)
    (core.startGroup "Upload Artifact";;
     uploadKernelArtifact kernelOutputPath (artifactName inputs);;
     core.endGroup);;
  (if publish inputs && truthy (hfToken inputs) && truthy (hfRepo inputs)
   then
     core.startGroup "Publish to Hugging Face";;
     publishToHuggingFace kernelOutputPath (hfRepo inputs) (hfToken inputs);;
     core.endGroup
   else if publish inputs then
     core.warning "Publish requested but hf-token or hf-repo not provided. Skipping publish."
   else mret tt);;
  core.info "Action completed successfully!".

Definition run_body : M unit :=
  inputs ← getInputs;
  run_stages inputs.

Definition run : M unit :=
  try_catch run_body run_catch.

Definition run_trace (w : World) : Trace :=
  snd (run w []).

(** The inputs of a world; this [getInputs] cannot throw. *)
Definition resolved (w : World) : ActionInputs :=
  match fst (getInputs w []) with
  | inr inputs => inputs
  | inl _ =>
      {| kernelPath := ""; buildTarget := ""; artifactName := "";
         uploadArtifact := false; cachixName := ""; cachixAuthToken := "";
         nixMaxJobs := ""; nixCores := ""; hfToken := ""; hfRepo := "";
         publish := false |}
  end.

Definition run_from (inputs : ActionInputs) (w : World) : Trace :=
  snd (try_catch (run_stages inputs) run_catch w []).

End IndexTs.

(** ** Reading a trace *)

(** The named outputs, in the order they were set. *)
Definition outputs (tr : Trace) : list (string * string) :=
  omap (fun e => match e with
                 | SetOutput name value => Some (name, value)
                 | _ => None
                 end) tr.

(** The failure messages reported with [core.setFailed]; a run is a
    success when there is none. *)
Definition failures (tr : Trace) : list string :=
  omap (fun e => match e with
                 | SetFailed msg => Some msg
                 | _ => None
                 end) tr.

Definition succeeded (tr : Trace) : bool :=
  match failures tr with
  | [] => true
  | _ => false
  end.

Definition warnings (tr : Trace) : list string :=
  omap (fun e => match e with
                 | Warning msg => Some msg
                 | _ => None
                 end) tr.

(** Calls to an external tool or service: a subprocess, the glob
    library, the artifact client. *)
Definition is_external_call (e : Event) : bool :=
  match e with
  | Exec _ _ _ _ | GlobCreate _ _ | GlobberGlob _ _
  | UploadArtifact _ _ _ _ => true
  | _ => false
  end.

(** A recorded call that rejected. *)
Definition threw (e : Event) : bool :=
  match e with
  | Exec _ _ _ (Some _) | GlobCreate _ (Some _) | GlobberGlob _ (inl _)
  | UploadArtifact _ _ _ (Some _) => true
  | _ => false
  end.

(** A recorded check of the result link that found nothing. *)
Definition result_missing (e : Event) : bool :=
  match e with
  | ExistsSync _ false => true
  | _ => false
  end.

(** The steps of the pipeline, recognised by the calls they make. *)
Definition is_exec_of (cmd : string) (e : Event) : bool :=
  match e with
  | Exec c _ _ _ => String.eqb c cmd
  | _ => false
  end.

Definition is_cachix_call (e : Event) : bool :=
  is_exec_of "nix-env" e || is_exec_of "cachix" e.

Definition is_packaging (e : Event) : bool :=
  is_exec_of "cp" e.

Definition is_artifact_upload (e : Event) : bool :=
  match e with
  | GlobCreate _ _ | GlobberGlob _ _ | UploadArtifact _ _ _ _ => true
  | _ => false
  end.

Definition is_hub_publish (e : Event) : bool :=
  is_exec_of "pip" e || is_exec_of "python" e.

(** The invocation of the kernels CLI: [nix] with [upload] as fourth
    argument (the [nix] invocation of [buildKernel] has three arguments
    at most). *)
Definition is_direct_upload (e : Event) : bool :=
  match e with
  | Exec c (_ :: _ :: _ :: sub :: _) _ _ =>
      String.eqb c "nix" && String.eqb sub "upload"
  | _ => false
  end.

(** The argument vectors with which a command was run, in order. *)
Definition invocations_of (cmd : string) (tr : Trace) : list (list string) :=
  flat_map (fun e => match e with
                     | Exec c args _ _ =>
                         if String.eqb c cmd then [args] else []
                     | _ => []
                     end) tr.

(** A rejected call of the artifact upload or of the hub publish. *)
Definition distribution_failure (e : Event) : bool :=
  threw e && (is_artifact_upload e || is_hub_publish e).

(** The installer's two subprocesses. *)
Definition is_install (e : Event) : bool :=
  is_exec_of "curl" e || is_exec_of "sh" e.

Definition install_failure (e : Event) : bool :=
  threw e && is_install e.

(** No event, or some event, of a trace is of a given kind. *)
Definition none_of (kind : Event -> bool) (tr : Trace) : bool :=
  forallb (fun e => negb (kind e)) tr.

Definition some_of (kind : Event -> bool) (tr : Trace) : bool :=
  existsb kind tr.

(** The commands that were run, in order. *)
Definition commands (tr : Trace) : list string :=
  flat_map (fun e => match e with
                     | Exec c _ _ _ => [c]
                     | _ => []
                     end) tr.

(** The value with which a recorded call rejected, and the rejections of
    a trace, in order. *)
Definition thrown_by (e : Event) : option Thrown :=
  match e with
  | Exec _ _ _ r | GlobCreate _ r | UploadArtifact _ _ _ r => r
  | GlobberGlob _ (inl t) => Some t
  | _ => None
  end.

Definition rejections (tr : Trace) : list Thrown :=
  flat_map (fun e => match thrown_by e with
                     | Some t => [t]
                     | None => []
                     end) tr.

(** The copy of the result, done. *)
Definition packaged (e : Event) : bool :=
  is_packaging e && negb (threw e).

(** Log groups: the groups left open by a trace, innermost first, and
    the deepest nesting it reaches.  [endGroup] closes the innermost
    open group. *)
Definition group_step (state : list string * nat) (e : Event)
  : list string * nat :=
  match e with
  | StartGroup name =>
      (name :: fst state, Nat.max (snd state) (S (length (fst state))))
  | EndGroup => (tail (fst state), snd state)
  | _ => state
  end.

Definition open_groups (tr : Trace) : list string :=
  fst (fold_left group_step tr ([], 0)).

Definition group_nesting (tr : Trace) : nat :=
  snd (fold_left group_step tr ([], 0)).

(** ** Specifications of computations *)

(** [post m w tr Q]: running [m] in world [w] after the events [tr]
    leads to a result and a trace that satisfy [Q]. *)
Definition post {A : Type} (m : M A) (w : World) (tr : Trace)
    (Q : Thrown + A -> Trace -> Prop) : Prop :=
  Q (fst (m w tr)) (snd (m w tr)).

(** [avoids kind m]: [m] adds no event of the given kind, in any world
    and after any trace.  The property is compositional, so it is proved
    by following the program text once, whatever the number of paths. *)
Definition avoids (kind : Event -> bool) {A : Type} (m : M A) : Prop :=
  forall (w : World) (tr : Trace),
    none_of kind tr = true -> none_of kind (snd (m w tr)) = true.


(** ** Concrete worlds *)

(** The inputs of a step that sets none of them. *)
Definition default_inputs : ActionInputs := {|
  kernelPath := ".";
  buildTarget := "ci";
  nixCommand := Build;
  verbose := true;
  artifactName := "kernel";
  uploadArtifact := true;
  cachixName := "huggingface";
  cachixAuthToken := "";
  nixMaxJobs := "4";
  nixCores := "12";
  sandboxMode := "fallback";
  extraNixConf := "";
  hfToken := "";
  hfRepo := "";
  publish := false;
|}.

(** The same with publishing requested, and no credentials. *)
Definition publishing_inputs : ActionInputs := {|
  kernelPath := ".";
  buildTarget := "ci";
  nixCommand := Build;
  verbose := true;
  artifactName := "kernel";
  uploadArtifact := true;
  cachixName := "huggingface";
  cachixAuthToken := "";
  nixMaxJobs := "4";
  nixCores := "12";
  sandboxMode := "fallback";
  extraNixConf := "";
  hfToken := "";
  hfRepo := "";
  publish := true;
|}.

(** A request for [build-and-upload] into the user's own repository,
    with or without a token and a request to publish. *)
Definition manual_inputs_with (token : string) (publish : bool)
  : ActionInputs := {|
  kernelPath := ".";
  buildTarget := "build-and-upload";
  nixCommand := Build;
  verbose := true;
  artifactName := "kernel";
  uploadArtifact := true;
  cachixName := "huggingface";
  cachixAuthToken := "";
  nixMaxJobs := "4";
  nixCores := "12";
  sandboxMode := "fallback";
  extraNixConf := "";
  hfToken := token;
  hfRepo := "org/model";
  publish := publish;
|}.

Definition manual_inputs : ActionInputs := manual_inputs_with "" false.

(** A kernel built with [nix run] and a cache of its own. *)
Definition run_inputs : ActionInputs := {|
  kernelPath := ".";
  buildTarget := "ci";
  nixCommand := Run;
  verbose := true;
  artifactName := "kernel";
  uploadArtifact := true;
  cachixName := "kernels";
  cachixAuthToken := "";
  nixMaxJobs := "4";
  nixCores := "12";
  sandboxMode := "fallback";
  extraNixConf := "";
  hfToken := "";
  hfRepo := "";
  publish := false;
|}.

(** A kernel built with [nix run], the default target and no cache. *)
Definition cacheless_run_inputs : ActionInputs := {|
  kernelPath := ".";
  buildTarget := "ci";
  nixCommand := Run;
  verbose := true;
  artifactName := "kernel";
  uploadArtifact := true;
  cachixName := "";
  cachixAuthToken := "";
  nixMaxJobs := "4";
  nixCores := "12";
  sandboxMode := "fallback";
  extraNixConf := "";
  hfToken := "";
  hfRepo := "";
  publish := false;
|}.

(** Raw inputs given as a finite map; an absent key reads as the empty
    string. *)
Definition inputs_from (raw : gmap string string) (name : string) : string :=
  default "" (raw !! name).

(** A world whose tools all succeed, on a runner whose working directory
    is [/work]; [found] says whether the result link exists after the
    Nix invocation, and the packaged directory holds one file. *)
Definition quiet_world (raw : gmap string string) (found : bool) : World := {|
  getInput := inputs_from raw;
  process_env := {["HOME" := "/home/runner"]};
  path_resolve := fun p => if String.eqb p "." then "/work" else "/work/" +:+ p;
  path_join := fun a b => a +:+ "/" +:+ b;
  exec_answer := fun _ _ _ _ => None;
  existsSync_answer := fun _ _ => found;
  globCreate_answer := fun _ _ => None;
  globberGlob_answer := fun _ pattern => inr ["kernel-output/kernel.so"];
  uploadArtifact_answer := fun _ _ _ _ => None;
|}.

(** The same world, except that the artifact store rejects the upload. *)
Definition upload_rejecting_world (raw : gmap string string) : World := {|
  getInput := inputs_from raw;
  process_env := {["HOME" := "/home/runner"]};
  path_resolve := fun p => if String.eqb p "." then "/work" else "/work/" +:+ p;
  path_join := fun a b => a +:+ "/" +:+ b;
  exec_answer := fun _ _ _ _ => None;
  existsSync_answer := fun _ _ => true;
  globCreate_answer := fun _ _ => None;
  globberGlob_answer := fun _ pattern => inr ["kernel-output/kernel.so"];
  uploadArtifact_answer :=
    fun _ _ _ _ => Some (JsError "Failed to upload artifact");
|}.


(** Publishing requested, with a token and a repository. *)
Definition credentialed_inputs : ActionInputs := {|
  kernelPath := ".";
  buildTarget := "ci";
  nixCommand := Build;
  verbose := true;
  artifactName := "kernel";
  uploadArtifact := true;
  cachixName := "huggingface";
  cachixAuthToken := "";
  nixMaxJobs := "4";
  nixCores := "12";
  sandboxMode := "fallback";
  extraNixConf := "";
  hfToken := "hf_secret";
  hfRepo := "org/model";
  publish := true;
|}.

(** A runner without [HOME], and with a token for the cache. *)
Definition homeless_world : World := {|
  getInput := inputs_from {["cachix-auth-token" := "cachix_secret"]};
  process_env := ∅;
  path_resolve := fun p => if String.eqb p "." then "/work" else "/work/" +:+ p;
  path_join := fun a b => a +:+ "/" +:+ b;
  exec_answer := fun _ _ _ _ => None;
  existsSync_answer := fun _ _ => true;
  globCreate_answer := fun _ _ => None;
  globberGlob_answer := fun _ pattern => inr ["kernel-output/kernel.so"];
  uploadArtifact_answer := fun _ _ _ _ => None;
|}.


(** * Properties *)

(** ** Strings and defaults *)

Lemma truthy_true (s : string) : truthy s = true <-> s <> "".
Proof.
  unfold truthy. rewrite negb_true_iff. apply String.eqb_neq.
Qed.


Lemma or_default_empty (d : string) : or_default "" d = d.
Proof. reflexivity. Qed.

Lemma or_default_set (a d : string) : a <> "" -> or_default a d = a.
Proof.
  intros Ha. unfold or_default. apply truthy_true in Ha. now rewrite Ha.
Qed.

Lemma neqb_true (a b : string) : negb (String.eqb a b) = true <-> a <> b.
Proof. rewrite negb_true_iff. apply String.eqb_neq. Qed.

(** ** Sandbox policy *)

(** C7: the sandbox mode is mapped to the installer directive exactly:
    [relaxed], [true] and [false] give [sandbox = relaxed], [sandbox =
    true] and [sandbox = false]; [fallback] and every other value give
    [sandbox-fallback = false]; and the directive is the third line of
    the configuration block that [installNix] hands to the installer. *)
Theorem sandbox_policy_mapping :
  sandboxConf "relaxed" = "sandbox = relaxed" /\
  sandboxConf "true" = "sandbox = true" /\
  sandboxConf "false" = "sandbox = false" /\
  sandboxConf "fallback" = "sandbox-fallback = false" /\
  (forall mode : string,
     mode <> "relaxed" -> mode <> "true" -> mode <> "false" ->
     sandboxConf mode = "sandbox-fallback = false") /\
  (forall maxJobs cores mode : string,
     extraConf maxJobs cores mode "" =
       "max-jobs = " +:+ maxJobs +:+ nl +:+ "cores = " +:+ cores +:+ nl +:+
       sandboxConf mode +:+ nl +:+
       "experimental-features = nix-command flakes" +:+ nl +:+
       "trusted-users = root runner") /\
  (forall (maxJobs cores mode extra : string) (w : World) (tr : Trace),
     In (Exec "sh"
           ["/tmp/nix-installer.sh"; "install"; "--no-confirm";
            "--extra-conf"; extraConf maxJobs cores mode extra]
           no_options None)
        (snd (installNix maxJobs cores mode extra w tr)) \/
     fst (installNix maxJobs cores mode extra w tr) <> inr tt).
Proof.
  repeat split; try reflexivity.
  - intros mode H1 H2 H3. unfold sandboxConf.
    apply String.eqb_neq in H1, H2, H3. rewrite H1, H2, H3.
    now destruct (String.eqb mode "fallback").
  - intros maxJobs cores mode extra w tr.
    unfold installNix, core.info, core.addPath, exec.exec, emit, call.
    cbv [mbind M_bind bind].
    destruct (exec_answer w _ "curl" _ _); [right; discriminate|].
    destruct (exec_answer w _ "sh" _ _) eqn:E; [right; discriminate|].
    left. simpl. rewrite !in_app_iff. simpl. tauto.
Qed.

Lemma sandbox_policy_mapping_witness :
  sandboxConf "strict" = "sandbox-fallback = false".
Proof.
  apply (proj1 (proj2 (proj2 (proj2 (proj2 sandbox_policy_mapping)))));
    discriminate.
Defined.

(** ** Reasoning about computations *)

(** One rule per construct of the monad.  The rules for the calls
    quantify over the answer, so a proof follows the program once and
    covers every world. *)
Section PostRules.
Context {A B : Type} (w : World) (tr : Trace).

Lemma post_ret (a : A) Q : Q (inr a) tr -> post (mret a) w tr Q.
Proof. exact id. Qed.

Lemma post_throw (t : Thrown) (Q : Thrown + A -> Trace -> Prop) :
  Q (inl t) tr -> post (throw t) w tr Q.
Proof. exact id. Qed.

Lemma post_ask (f : World -> A) Q : Q (inr (f w)) tr -> post (ask f) w tr Q.
Proof. exact id. Qed.

Lemma post_emit (e : Event) Q :
  Q (inr tt) (tr ++ [e]) -> post (emit e) w tr Q.
Proof. exact id. Qed.

Lemma post_call answer record Q :
  (forall r : option Thrown,
     Q (match r with Some t => inl t | None => inr tt end)
       (tr ++ [record r])) ->
  post (call answer record) w tr Q.
Proof. intros H. apply H. Qed.

Lemma post_existsSync (p : string) Q :
  (forall b : bool, Q (inr b) (tr ++ [ExistsSync p b])) ->
  post (fs.existsSync p) w tr Q.
Proof. intros H. apply H. Qed.

Lemma post_glob (g : string) Q :
  (forall r : Thrown + list string, Q r (tr ++ [GlobberGlob g r])) ->
  post (glob.glob g) w tr Q.
Proof. intros H. apply H. Qed.

Lemma post_bind (m : M A) (k : A -> M B) Q :
  post m w tr (fun r tr' =>
                 match r with
                 | inl t => Q (inl t) tr'
                 | inr a => post (k a) w tr' Q
                 end) ->
  post (m ≫= k) w tr Q.
Proof.
  unfold post, mbind, M_bind, bind.
  destruct (m w tr) as [[t|a] tr']; simpl; auto.
Qed.

Lemma post_try_catch (m : M A) (h : Thrown -> M A) Q :
  post m w tr (fun r tr' =>
                 match r with
                 | inl t => post (h t) w tr' Q
                 | inr a => Q (inr a) tr'
                 end) ->
  post (try_catch m h) w tr Q.
Proof.
  unfold post, try_catch.
  destruct (m w tr) as [[t|a] tr']; simpl; auto.
Qed.
End PostRules.

Lemma run_catch_eq (error : Thrown) :
  run_catch error = core.setFailed (failure_message error).
Proof. now destruct error. Qed.

Lemma post_run_catch (w : World) (tr : Trace) (error : Thrown) Q :
  Q (inr tt) (tr ++ [SetFailed (failure_message error)]) ->
  post (run_catch error) w tr Q.
Proof. rewrite run_catch_eq. exact id. Qed.

(** [getInputs] leaves no event, whatever the trace so far. *)
Lemma getInputs_pure (w : World) (tr : Trace) :
  getInputs w tr = (resolved w, tr).
Proof.
  unfold resolved, getInputs, ask, throw.
  cbv [mbind M_bind bind mret M_ret ret].
  destruct (String.eqb _ "build"); [reflexivity|].
  destruct (String.eqb _ "run"); reflexivity.
Qed.

Lemma run_trace_resolved (w : World) (inputs : ActionInputs) :
  resolved w = inr inputs -> run_trace w = run_from inputs w.
Proof.
  intros H. unfold run_trace, run_from, run, run_body, try_catch.
  cbv [mbind M_bind bind]. now rewrite getInputs_pure, H.
Qed.

Lemma run_trace_rejected (w : World) (error : Thrown) :
  resolved w = inl error ->
  run_trace w = [SetFailed (failure_message error)].
Proof.
  intros H. unfold run_trace, run, run_body, try_catch.
  cbv [mbind M_bind bind]. rewrite getInputs_pure, H.
  now rewrite run_catch_eq.
Qed.

(** A property of every trace that [run_stages] followed by the [catch]
    block can leave holds of [run_from]. *)
Lemma run_from_post (inputs : ActionInputs) (w : World) (Q : Trace -> Prop) :
  post (try_catch (run_stages inputs) run_catch) w [] (fun _ tr => Q tr) ->
  Q (run_from inputs w).
Proof. exact id. Qed.

(** Symbolic execution: [step] applies the rule of the construct at the
    head of the computation, unfolding the stages on the way, and splits
    on every answer and every condition it meets. *)
Ltac unfold_stage :=
  unfold run_stages, installNix, setupCachix, buildKernel, copyKernel,
    uploadKernelArtifact, publishToHuggingFace, uploadWithKernelsCli,
    IndexTs.run_stages, IndexTs.installNix, IndexTs.setupCachix,
    IndexTs.buildKernel,
    core.info, core.warning, core.startGroup, core.endGroup, core.addPath,
    core.setOutput, core.setFailed, exec.exec, glob.create,
    artifact.uploadArtifact, when.

Ltac step :=
  cbv beta iota;
  lazymatch goal with
  | |- post (_ ≫= _) _ _ _ => apply post_bind
  | |- post (try_catch _ _) _ _ _ => apply post_try_catch
  | |- post (run_catch _) _ _ _ => apply post_run_catch
  | |- post (mret _) _ _ _ => apply post_ret
  | |- post (ret _) _ _ _ => apply post_ret
  | |- post (throw _) _ _ _ => apply post_throw
  | |- post (ask _) _ _ _ => apply post_ask
  | |- post (emit _) _ _ _ => apply post_emit
  | |- post (core.info _) _ _ _ => apply post_emit
  | |- post (core.startGroup _) _ _ _ => apply post_emit
  | |- post core.endGroup _ _ _ => apply post_emit
  | |- post (core.setOutput _ _) _ _ _ => apply post_emit
  | |- post (call _ _) _ _ _ => apply post_call; intros [?|]
  | |- post (exec.exec _ _ _) _ _ _ => apply post_call; intros [?|]
  | |- post (fs.existsSync _) _ _ _ => apply post_existsSync; intros [|]
  | |- post (glob.glob _) _ _ _ => apply post_glob; intros [?|?]
  | |- post (if negb true then _ else _) _ _ _ => change (negb true) with false
  | |- post (if negb false then _ else _) _ _ _ => change (negb false) with true
  | |- post (if ?b then _ else _) _ _ _ => destruct b eqn:?
  | |- post (match ?x with _ => _ end) _ _ _ => destruct x eqn:?
  | |- post _ _ _ _ => progress unfold_stage
  end.

Ltac run_symbolically := repeat step.

(** ** Two runs, evaluated *)

(** The default inputs with a successful build: the kernel is packaged
    in [kernel-output] and the run succeeds. *)
Example default_build_run :
  outputs (run_trace (quiet_world ∅ true))
    = [("kernel-path", "kernel-output"); ("artifact-name", "kernel")] /\
  succeeded (run_trace (quiet_world ∅ true)) = true /\
  some_of is_packaging (run_trace (quiet_world ∅ true)) = true /\
  some_of is_artifact_upload (run_trace (quiet_world ∅ true)) = true.
Proof. vm_compute. repeat split. Qed.

(** [build-and-upload] into [org/model]: the target becomes
    [build-and-copy] and the kernels CLI uploads to [org/model]. *)
Example manual_upload_run :
  invocations_of "nix"
    (run_trace (quiet_world {["hf-repo" := "org/model";
                              "build-target" := "build-and-upload"]} true))
    = [["build"; "-L"; ".#build-and-copy"];
       ["run"; ".#kernels"; "--"; "upload"; "--repo_id"; "org/model"; "."]]
  /\
  outputs
    (run_trace (quiet_world {["hf-repo" := "org/model";
                              "build-target" := "build-and-upload"]} true))
    = [("kernel-path", ""); ("artifact-name", "kernel")].
Proof. vm_compute. split; reflexivity. Qed.

(** ** Input resolution *)

(** C5: an execution mode that is set and is neither [build] nor [run]
    makes [getInputs] throw at once; the run is a failure whose trace is
    the failure report alone, so no external tool was invoked. *)
Theorem invalid_mode_fails_first (w : World) :
  getInput w "nix-command" <> "" ->
  getInput w "nix-command" <> "build" ->
  getInput w "nix-command" <> "run" ->
  let message := "Invalid nix-command: " +:+ getInput w "nix-command"
                 +:+ ". Must be 'build' or 'run'." in
  resolved w = inl (JsError message) /\
  run_trace w = [SetFailed message] /\
  succeeded (run_trace w) = false /\
  none_of is_external_call (run_trace w) = true.
Proof.
  intros Hset Hbuild Hrun message.
  assert (Hres : resolved w = inl (JsError message)).
  { unfold resolved, getInputs, ask, throw.
    cbv [mbind M_bind bind]. simpl.
    rewrite (or_default_set _ _ Hset).
    apply String.eqb_neq in Hbuild, Hrun. now rewrite Hbuild, Hrun. }
  split; [exact Hres|].
  rewrite (run_trace_rejected _ _ Hres). simpl. auto.
Qed.

Lemma invalid_mode_fails_first_witness :
  run_trace (quiet_world {["nix-command" := "develop"]} true) =
    [SetFailed "Invalid nix-command: develop. Must be 'build' or 'run'."].
Proof.
  refine (proj1 (proj2 (invalid_mode_fails_first
                          (quiet_world {["nix-command" := "develop"]} true)
                          _ _ _)));
    vm_compute; discriminate.
Defined.

(** What [getInputs] puts in each field when it returns. *)
Lemma resolved_fields (w : World) (inputs : ActionInputs) :
  resolved w = inr inputs ->
  let raw := getInput w in
  kernelPath inputs = or_default (raw "kernel-path") "." /\
  buildTarget inputs = or_default (raw "build-target") "ci" /\
  NixCommand_to_string (nixCommand inputs)
    = or_default (raw "nix-command") "build" /\
  verbose inputs = negb (String.eqb (raw "verbose") "false") /\
  artifactName inputs = or_default (raw "artifact-name") "kernel" /\
  uploadArtifact inputs = negb (String.eqb (raw "upload-artifact") "false") /\
  cachixName inputs = or_default (raw "cachix-name") "huggingface" /\
  cachixAuthToken inputs = or_default (raw "cachix-auth-token") "" /\
  nixMaxJobs inputs = or_default (raw "nix-max-jobs") "4" /\
  nixCores inputs = or_default (raw "nix-cores") "12" /\
  sandboxMode inputs = or_default (raw "sandbox-mode") "fallback" /\
  extraNixConf inputs = or_default (raw "extra-nix-conf") "" /\
  hfToken inputs = or_default (raw "hf-token") "" /\
  hfRepo inputs = or_default (raw "hf-repo") "" /\
  publish inputs = String.eqb (raw "publish") "true".
Proof.
  unfold resolved, getInputs, ask, throw.
  cbv [mbind M_bind bind mret M_ret ret]. simpl.
  destruct (String.eqb _ "build") eqn:Eb.
  - intros [= <-]. simpl. apply String.eqb_eq in Eb. now rewrite Eb.
  - destruct (String.eqb _ "run") eqn:Er; [|discriminate].
    intros [= <-]. simpl. apply String.eqb_eq in Er. now rewrite Er.
Qed.

(** C9: when [getInputs] returns, every string field whose raw input is
    empty holds its literal default (and the execution mode is [build]);
    [verbose] and [uploadArtifact] are true unless the raw value is
    exactly [false]; [publish] is true only if the raw value is exactly
    [true]. *)
Theorem input_defaults (w : World) (inputs : ActionInputs) :
  resolved w = inr inputs ->
  let raw := getInput w in
  (raw "kernel-path" = "" -> kernelPath inputs = ".") /\
  (raw "build-target" = "" -> buildTarget inputs = "ci") /\
  (raw "nix-command" = "" -> nixCommand inputs = Build) /\
  (raw "artifact-name" = "" -> artifactName inputs = "kernel") /\
  (raw "cachix-name" = "" -> cachixName inputs = "huggingface") /\
  (raw "cachix-auth-token" = "" -> cachixAuthToken inputs = "") /\
  (raw "nix-max-jobs" = "" -> nixMaxJobs inputs = "4") /\
  (raw "nix-cores" = "" -> nixCores inputs = "12") /\
  (raw "sandbox-mode" = "" -> sandboxMode inputs = "fallback") /\
  (raw "extra-nix-conf" = "" -> extraNixConf inputs = "") /\
  (raw "hf-token" = "" -> hfToken inputs = "") /\
  (raw "hf-repo" = "" -> hfRepo inputs = "") /\
  (verbose inputs = true <-> raw "verbose" <> "false") /\
  (uploadArtifact inputs = true <-> raw "upload-artifact" <> "false") /\
  (publish inputs = true <-> raw "publish" = "true").
Proof.
  intros H raw.
  destruct (resolved_fields w inputs H)
    as (-> & -> & Hc & -> & -> & -> & -> & -> & -> & -> & -> & -> & -> & ->
        & ->).
  fold raw in Hc |- *.
  repeat split;
    try (intros ->; reflexivity);
    try apply neqb_true; try apply String.eqb_eq.
  intros E. rewrite E in Hc. now destruct (nixCommand inputs).
Qed.

Lemma input_defaults_witness :
  resolved (quiet_world {["publish" := "true"; "verbose" := "no"]} true)
    = inr publishing_inputs /\
  (verbose publishing_inputs = true <->
   inputs_from {["publish" := "true"; "verbose" := "no"]} "verbose"
     <> "false") /\
  (publish publishing_inputs = true <->
   inputs_from {["publish" := "true"; "verbose" := "no"]} "publish"
     = "true").
Proof.
  assert (H : resolved
                (quiet_world {["publish" := "true"; "verbose" := "no"]} true)
              = inr publishing_inputs)
    by (vm_compute; reflexivity).
  split; [exact H|].
  destruct (input_defaults _ _ H)
    as (_ & _ & _ & _ & _ & _ & _ & _ & _ & _ & _ & _ & Hv & _ & Hp).
  split; [exact Hv | exact Hp].
Defined.


(** [getInputs] never returns an empty cache name: an unset input reads
    as [huggingface]. *)
Lemma resolved_cachixName (w : World) (inputs : ActionInputs) :
  resolved w = inr inputs -> cachixName inputs <> "".
Proof.
  intros H.
  destruct (resolved_fields w inputs H) as (_ & _ & _ & _ & _ & _ & -> & _).
  unfold or_default. destruct (truthy _) eqn:E; [|discriminate].
  now apply truthy_true.
Qed.

(** ** Steps that never run *)

Lemma none_of_snoc (kind : Event -> bool) (tr : Trace) (e : Event) :
  none_of kind (tr ++ [e]) = none_of kind tr && negb (kind e).
Proof.
  unfold none_of. rewrite forallb_app. simpl. now rewrite andb_true_r.
Qed.

Section AvoidsRules.
Context (kind : Event -> bool) {A B : Type}.

Lemma avoids_ret (a : A) : avoids kind (mret a).
Proof. intros w tr H. exact H. Qed.

Lemma avoids_throw (t : Thrown) : avoids kind (throw (A := A) t).
Proof. intros w tr H. exact H. Qed.

Lemma avoids_ask (f : World -> A) : avoids kind (ask f).
Proof. intros w tr H. exact H. Qed.

Lemma avoids_emit (e : Event) : kind e = false -> avoids kind (emit e).
Proof.
  intros He w tr H. unfold emit. simpl. now rewrite none_of_snoc, H, He.
Qed.

Lemma avoids_call answer record :
  (forall r : option Thrown, kind (record r) = false) ->
  avoids kind (call answer record).
Proof.
  intros He w tr H. unfold call. simpl. now rewrite none_of_snoc, H, He.
Qed.

Lemma avoids_existsSync (p : string) :
  (forall b : bool, kind (ExistsSync p b) = false) ->
  avoids kind (fs.existsSync p).
Proof.
  intros He w tr H. unfold fs.existsSync. simpl.
  now rewrite none_of_snoc, H, He.
Qed.

Lemma avoids_glob (g : string) :
  (forall r : Thrown + list string, kind (GlobberGlob g r) = false) ->
  avoids kind (glob.glob g).
Proof.
  intros He w tr H. unfold glob.glob. simpl.
  now rewrite none_of_snoc, H, He.
Qed.

Lemma avoids_bind (m : M A) (k : A -> M B) :
  avoids kind m -> (forall a : A, avoids kind (k a)) ->
  avoids kind (m ≫= k).
Proof.
  intros Hm Hk w tr H. specialize (Hm w tr H).
  unfold mbind, M_bind, bind.
  destruct (m w tr) as [[t|a] tr']; simpl in *; [exact Hm|].
  now apply Hk.
Qed.

Lemma avoids_try_catch (m : M A) (h : Thrown -> M A) :
  avoids kind m -> (forall t : Thrown, avoids kind (h t)) ->
  avoids kind (try_catch m h).
Proof.
  intros Hm Hh w tr H. specialize (Hm w tr H).
  unfold try_catch.
  destruct (m w tr) as [[t|a] tr']; simpl in *; [|exact Hm].
  now apply Hh.
Qed.
End AvoidsRules.

Lemma avoids_run_from (kind : Event -> bool) (inputs : ActionInputs) :
  avoids kind (try_catch (run_stages inputs) run_catch) ->
  forall w : World, none_of kind (run_from inputs w) = true.
Proof. intros H w. now apply H. Qed.

(** [avoid] follows the program text; what it leaves is that the event
    of a step is not of the kind to avoid. *)
Ltac avoid :=
  lazymatch goal with
  | |- avoids _ (_ ≫= _) => apply avoids_bind; [|intros ?]
  | |- avoids _ (try_catch _ _) => apply avoids_try_catch; [|intros [?|]]
  | |- avoids _ (mret _) => apply avoids_ret
  | |- avoids _ (ret _) => apply avoids_ret
  | |- avoids _ (throw _) => apply avoids_throw
  | |- avoids _ (ask _) => apply avoids_ask
  | |- avoids _ (emit _) => apply avoids_emit
  | |- avoids _ (call _ _) => apply avoids_call; intros ?
  | |- avoids _ (fs.existsSync _) => apply avoids_existsSync; intros ?
  | |- avoids _ (glob.glob _) => apply avoids_glob; intros ?
  | |- avoids _ (if ?b then _ else _) => destruct b eqn:?
  | |- avoids _ (match ?x with _ => _ end) => destruct x eqn:?
  | |- avoids _ _ => progress (unfold run_catch; unfold_stage)
  end.

(** ** The manual-upload path *)

(** C10: on the manual-upload path neither the generic artifact upload
    nor the hub publish runs (nor the copy that precedes them), whatever
    the upload and publish flags and the credentials are. *)
Theorem manual_upload_bypasses_distribution
    (w : World) (inputs : ActionInputs) :
  resolved w = inr inputs ->
  needsManualUpload inputs = true ->
  none_of is_artifact_upload (run_trace w) = true /\
  none_of is_hub_publish (run_trace w) = true /\
  none_of is_packaging (run_trace w) = true.
Proof.
  intros Hres Hmanual. rewrite (run_trace_resolved _ _ Hres).
  repeat split; apply avoids_run_from;
    unfold run_stages; rewrite Hmanual; repeat avoid; reflexivity.
Qed.
(** Closing a branch of the symbolic execution: a hypothesis that
    evaluates to [false = true] refutes it, otherwise the conclusions are
    checked on the trace of the branch. *)
Ltac refuted :=
  match goal with
  | H : _ = true |- _ => exact (False_ind _ (diff_false_true H))
  | H : _ = false |- _ => exact (False_ind _ (diff_true_false H))
  | H : ?a = ?a -> _ = true |- _ =>
      exact (False_ind _ (diff_false_true (H eq_refl)))
  end.

Ltac found_in_trace :=
  cbv [app In]; repeat (first [left; reflexivity | right]).

(** C1: manual upload is required exactly when [hf-repo] is set and the
    requested target is [build-and-upload]; then the target given to the
    build tool is [build-and-copy], and, when no tool fails (and, in
    build mode, the result link exists), the kernels CLI is run for the
    user's repository, [kernel-path] is set to the empty string and the
    run succeeds.  Without manual upload the target is the requested one
    and the kernels CLI is never run. *)
Theorem manual_upload_path (inputs : ActionInputs) :
  (needsManualUpload inputs = true <->
   hfRepo inputs <> "" /\ buildTarget inputs = "build-and-upload") /\
  (needsManualUpload inputs = true ->
   effectiveTarget inputs = "build-and-copy") /\
  (needsManualUpload inputs = false ->
   effectiveTarget inputs = buildTarget inputs) /\
  (forall w : World,
     resolved w = inr inputs ->
     needsManualUpload inputs = true ->
     none_of threw (run_trace w) = true ->
     (nixCommand inputs = Build ->
      none_of result_missing (run_trace w) = true) ->
     In (Exec "nix"
           (nix_args "build-and-copy" (nixCommand inputs) (verbose inputs))
           {| opt_cwd := Some (path_resolve w (kernelPath inputs));
              opt_env := Some (<["HF_REPO" := hfRepo inputs]> (process_env w))
           |} None)
        (run_trace w) /\
     In (Exec "nix" (kernels_upload_args (hfRepo inputs))
           {| opt_cwd := Some (path_resolve w (kernelPath inputs));
              opt_env := None |} None)
        (run_trace w) /\
     outputs (run_trace w)
       = [("kernel-path", ""); ("artifact-name", artifactName inputs)] /\
     succeeded (run_trace w) = true) /\
  (forall w : World,
     resolved w = inr inputs ->
     needsManualUpload inputs = false ->
     none_of is_direct_upload (run_trace w) = true).
Proof.
  split; [|split; [|split; [|split]]].
  - unfold needsManualUpload. rewrite andb_true_iff, truthy_true.
    now rewrite String.eqb_eq.
  - unfold effectiveTarget. now intros ->.
  - unfold effectiveTarget. now intros ->.
  - intros w Hres Hmanual. rewrite (run_trace_resolved _ _ Hres).
    apply run_from_post. unfold run_stages, effectiveTarget.
    rewrite Hmanual.
    apply andb_true_iff in Hmanual as [Hrepo _].
    unfold buildKernel. rewrite Hrepo.
    run_symbolically; intros Hok Hfound; try refuted;
      (split; [found_in_trace|split; [found_in_trace|split; reflexivity]]).
  - intros w Hres Hmanual. rewrite (run_trace_resolved _ _ Hres).
    apply avoids_run_from. unfold run_stages. rewrite Hmanual.
    repeat avoid; first [reflexivity | now destruct (verbose inputs)].
Qed.

Lemma manual_upload_path_witness :
  outputs (run_trace
             (quiet_world {["hf-repo" := "org/model";
                            "build-target" := "build-and-upload"]} true))
    = [("kernel-path", ""); ("artifact-name", "kernel")] /\
  succeeded (run_trace
               (quiet_world {["hf-repo" := "org/model";
                              "build-target" := "build-and-upload"]} true))
    = true.
Proof.
  refine (proj2 (proj2 (proj1 (proj2 (proj2 (proj2
            (manual_upload_path manual_inputs)))) _ _ _ _ _)));
    vm_compute; reflexivity.
Defined.


Lemma manual_upload_bypasses_distribution_witness :
  none_of is_artifact_upload
    (run_trace
       (quiet_world {["hf-repo" := "org/model"; "hf-token" := "hf_secret";
                      "publish" := "true";
                      "build-target" := "build-and-upload"]} true)) = true /\
  none_of is_hub_publish
    (run_trace
       (quiet_world {["hf-repo" := "org/model"; "hf-token" := "hf_secret";
                      "publish" := "true";
                      "build-target" := "build-and-upload"]} true)) = true /\
  none_of is_packaging
    (run_trace
       (quiet_world {["hf-repo" := "org/model"; "hf-token" := "hf_secret";
                      "publish" := "true";
                      "build-target" := "build-and-upload"]} true)) = true.
Proof.
  apply (manual_upload_bypasses_distribution _
           (manual_inputs_with "hf_secret" true));
    vm_compute; reflexivity.
Defined.

(** ** The result link after the build *)

(** C2: in run mode a missing result link is not an error: [buildKernel]
    returns [null]; the copy, the artifact upload and the hub publish
    are skipped; [kernel-path] is set to the empty string and
    [artifact-name] to the artifact name; and the run succeeds (on the
    manual-upload path, provided the direct upload does not fail). *)
Theorem run_mode_missing_result (inputs : ActionInputs) :
  nixCommand inputs = Run ->
  (forall (target : string) (w : World),
     some_of result_missing
       (snd (buildKernel (kernelPath inputs) target Run (verbose inputs)
               (hfRepo inputs) w [])) = true ->
     fst (buildKernel (kernelPath inputs) target Run (verbose inputs)
            (hfRepo inputs) w []) = inr None) /\
  (forall w : World,
     resolved w = inr inputs ->
     some_of result_missing (run_trace w) = true ->
     (needsManualUpload inputs = true -> none_of threw (run_trace w) = true) ->
     none_of is_packaging (run_trace w) = true /\
     none_of is_artifact_upload (run_trace w) = true /\
     none_of is_hub_publish (run_trace w) = true /\
     outputs (run_trace w)
       = [("kernel-path", ""); ("artifact-name", artifactName inputs)] /\
     succeeded (run_trace w) = true).
Proof.
  intros Hrun. split.
  - intros target w.
    apply (id (A := post (buildKernel _ _ _ _ _) w []
                      (fun r tr => some_of result_missing tr = true ->
                                   r = inr None))).
    run_symbolically; intros H; first [refuted | reflexivity].
  - intros w Hres. rewrite (run_trace_resolved _ _ Hres).
    apply run_from_post. unfold run_stages. rewrite Hrun.
    destruct (needsManualUpload inputs) eqn:Hmanual;
      run_symbolically; intros Hmiss Hok; try refuted;
      repeat split; reflexivity.
Qed.

Lemma run_mode_missing_result_witness :
  outputs (run_trace (quiet_world {["nix-command" := "run";
                                    "cachix-name" := "kernels"]} false))
    = [("kernel-path", ""); ("artifact-name", "kernel")] /\
  succeeded (run_trace (quiet_world {["nix-command" := "run";
                                      "cachix-name" := "kernels"]} false))
    = true.
Proof.
  refine (proj2 (proj2 (proj2
            (proj2 (run_mode_missing_result run_inputs eq_refl)
               (quiet_world {["nix-command" := "run";
                              "cachix-name" := "kernels"]} false)
               _ _ _)))).
  - vm_compute. reflexivity.
  - vm_compute. reflexivity.
  - vm_compute. discriminate.
Defined.

(** C3: in build mode a missing result link makes [buildKernel] throw
    [Build result not found at <link>]; the run reports that message as
    its failure right after the check, sets no output, and neither the
    copy, nor the artifact upload, nor the hub publish, nor the direct
    upload runs. *)
Theorem build_mode_missing_result (inputs : ActionInputs) :
  nixCommand inputs = Build ->
  (forall (target : string) (w : World),
     some_of result_missing
       (snd (buildKernel (kernelPath inputs) target Build (verbose inputs)
               (hfRepo inputs) w [])) = true ->
     fst (buildKernel (kernelPath inputs) target Build (verbose inputs)
            (hfRepo inputs) w [])
       = inl (JsError ("Build result not found at "
                       +:+ result_link w (kernelPath inputs)))) /\
  (forall w : World,
     resolved w = inr inputs ->
     some_of result_missing (run_trace w) = true ->
     In (ExistsSync (result_link w (kernelPath inputs)) false) (run_trace w) /\
     last (run_trace w)
       = Some (SetFailed ("Build result not found at "
                          +:+ result_link w (kernelPath inputs))) /\
     failures (run_trace w)
       = ["Build result not found at " +:+ result_link w (kernelPath inputs)] /\
     succeeded (run_trace w) = false /\
     outputs (run_trace w) = [] /\
     none_of is_packaging (run_trace w) = true /\
     none_of is_artifact_upload (run_trace w) = true /\
     none_of is_hub_publish (run_trace w) = true /\
     none_of is_direct_upload (run_trace w) = true).
Proof.
  intros Hbuild. split.
  - intros target w.
    apply (id (A := post (buildKernel _ _ _ _ _) w []
                      (fun r tr => some_of result_missing tr = true ->
                                   r = inl _))).
    run_symbolically; intros H; first [refuted | reflexivity].
  - intros w Hres. rewrite (run_trace_resolved _ _ Hres).
    apply run_from_post. unfold run_stages. rewrite Hbuild.
    run_symbolically; intros Hmiss; try refuted;
      (split; [found_in_trace|]);
      destruct (verbose inputs); repeat split; reflexivity.
Qed.

Lemma build_mode_missing_result_witness :
  failures (run_trace (quiet_world ∅ false))
    = ["Build result not found at /work/result"] /\
  outputs (run_trace (quiet_world ∅ false)) = [].
Proof.
  destruct (proj2 (build_mode_missing_result default_inputs eq_refl)
              (quiet_world ∅ false))
    as (_ & _ & Hf & _ & Ho & _).
  - vm_compute. reflexivity.
  - vm_compute. reflexivity.
  - split; [exact Hf | exact Ho].
Defined.

(** ** Cache configuration *)

(** C8: with an empty cache name [setupCachix] returns normally after a
    log line, without any call; in a run with such inputs no Cachix
    call occurs, and when the installer has not failed the run goes on
    to the build stage and invokes [nix]. *)
Theorem empty_cache_name_skips_cachix (inputs : ActionInputs) :
  cachixName inputs = "" ->
  (forall (w : World) (tr : Trace),
     setupCachix (cachixName inputs) (cachixAuthToken inputs) w tr
       = (inr tt,
          tr ++ [Info "Skipping Cachix setup (no cache name provided)"])) /\
  (forall w : World,
     none_of is_cachix_call (run_from inputs w) = true /\
     (none_of install_failure (run_from inputs w) = true ->
      In (Info "Skipping Cachix setup (no cache name provided)")
         (run_from inputs w) /\
      In (StartGroup (match nixCommand inputs with
                      | Build => "Build Kernel"
                      | Run => "Run Kernel"
                      end))
         (run_from inputs w) /\
      some_of (is_exec_of "nix") (run_from inputs w) = true)).
Proof.
  intros Hname. split; [|split].
  - intros w tr. now rewrite Hname.
  - apply avoids_run_from. unfold run_stages, setupCachix.
    rewrite Hname. simpl (negb (truthy "")). cbv iota.
    repeat avoid; reflexivity.
  - apply run_from_post. unfold run_stages, setupCachix.
    rewrite Hname. simpl (negb (truthy "")). cbv iota.
    run_symbolically; intros Hok; try refuted;
      (split; [found_in_trace|split; [found_in_trace|reflexivity]]).
Qed.

Lemma empty_cache_name_skips_cachix_witness :
  none_of is_cachix_call
    (run_from cacheless_run_inputs (quiet_world ∅ true)) = true /\
  some_of (is_exec_of "nix")
    (run_from cacheless_run_inputs (quiet_world ∅ true)) = true.
Proof.
  destruct (proj2 (empty_cache_name_skips_cachix cacheless_run_inputs eq_refl)
              (quiet_world ∅ true)) as [Hnone Hbuild].
  split; [exact Hnone|].
  apply Hbuild. vm_compute. reflexivity.
Defined.

(** ** Outputs and failures *)

(** Refutation of C4 as stated: when the artifact store rejects the
    upload the run fails, and both outputs are set all the same. *)
Lemma upload_failure_keeps_outputs :
  succeeded (run_trace (upload_rejecting_world ∅)) = false /\
  outputs (run_trace (upload_rejecting_world ∅))
    = [("kernel-path", "kernel-output"); ("artifact-name", "kernel")] /\
  ~ (forall w : World,
       succeeded (run_trace w) = false -> outputs (run_trace w) = []).
Proof.
  split; [reflexivity|]. split; [reflexivity|].
  intros H. specialize (H (upload_rejecting_world ∅) eq_refl).
  vm_compute in H. discriminate H.
Qed.

(** C4, amended: a run whose inputs are rejected sets no output; a run
    that fails elsewhere than in the artifact upload or the hub publish
    sets no output; a run in which a call of the artifact upload or of
    the hub publish is rejected fails with both outputs already set, to
    the packaged directory and to the artifact name. *)
Theorem failed_run_outputs (w : World) :
  (forall error : Thrown,
     resolved w = inl error ->
     succeeded (run_trace w) = false /\ outputs (run_trace w) = []) /\
  (forall inputs : ActionInputs,
     resolved w = inr inputs ->
     (succeeded (run_trace w) = false ->
      some_of distribution_failure (run_trace w) = false ->
      outputs (run_trace w) = []) /\
     (some_of distribution_failure (run_trace w) = true ->
      succeeded (run_trace w) = false /\
      outputs (run_trace w)
        = [("kernel-path", artifactName inputs +:+ "-output");
           ("artifact-name", artifactName inputs)])).
Proof.
  split.
  - intros error H. rewrite (run_trace_rejected _ _ H). now split.
  - intros inputs Hres. rewrite (run_trace_resolved _ _ Hres).
    apply run_from_post.
    run_symbolically;
      (split; [intros Hfail Hdist|intros Hdist]); try refuted;
      repeat split; reflexivity.
Qed.

Lemma failed_run_outputs_witness :
  succeeded (run_trace (upload_rejecting_world ∅)) = false /\
  outputs (run_trace (upload_rejecting_world ∅))
    = [("kernel-path", "kernel-output"); ("artifact-name", "kernel")].
Proof.
  assert (H : resolved (upload_rejecting_world ∅) = inr default_inputs)
    by (vm_compute; reflexivity).
  apply (proj2 (proj2 (failed_run_outputs (upload_rejecting_world ∅))
                  default_inputs H)).
  vm_compute. reflexivity.
Defined.

(** ** Publishing without credentials *)

(** Refutation of C6 as stated: publishing is requested without a
    token, every tool succeeds, and yet no warning is emitted, because
    the request is for [build-and-upload] into the user's repository and
    the run returns after the direct upload. *)
Lemma publish_without_token_no_warning :
  resolved (quiet_world {["hf-repo" := "org/model"; "publish" := "true";
                          "build-target" := "build-and-upload"]} true)
    = inr (manual_inputs_with "" true) /\
  publish (manual_inputs_with "" true) = true /\
  hfToken (manual_inputs_with "" true) = "" /\
  none_of threw
    (run_trace
       (quiet_world {["hf-repo" := "org/model"; "publish" := "true";
                      "build-target" := "build-and-upload"]} true)) = true /\
  warnings
    (run_trace
       (quiet_world {["hf-repo" := "org/model"; "publish" := "true";
                      "build-target" := "build-and-upload"]} true)) = [].
Proof.
  repeat split; vm_compute; reflexivity.
Qed.

(** C6, amended: when publishing is requested and the token or the
    repository is empty, the hub publish never runs; and when the run
    reaches the publish decision (it is not on the manual-upload path,
    the result link exists and no call has failed) the warning is
    emitted, once, and the run succeeds. *)
Theorem publish_without_credentials (inputs : ActionInputs) :
  publish inputs = true ->
  hfToken inputs = "" \/ hfRepo inputs = "" ->
  forall w : World,
    resolved w = inr inputs ->
    none_of is_hub_publish (run_trace w) = true /\
    (needsManualUpload inputs = false ->
     none_of threw (run_trace w) = true ->
     none_of result_missing (run_trace w) = true ->
     warnings (run_trace w) = [publish_warning] /\
     succeeded (run_trace w) = true).
Proof.
  intros Hpub Hcred w Hres. rewrite (run_trace_resolved _ _ Hres).
  assert (Hgate : publish inputs && truthy (hfToken inputs)
                  && truthy (hfRepo inputs) = false).
  { rewrite Hpub. destruct Hcred as [-> | ->]; simpl; [reflexivity|].
    apply andb_false_r. }
  split.
  - apply avoids_run_from. unfold run_stages. rewrite Hgate, Hpub.
    repeat avoid; reflexivity.
  - intros Hmanual. apply run_from_post.
    unfold run_stages. rewrite Hgate, Hpub, Hmanual.
    run_symbolically; intros Hok Hfound; try refuted; split; reflexivity.
Qed.

Lemma publish_without_credentials_witness :
  warnings (run_trace (quiet_world {["publish" := "true"]} true))
    = [publish_warning] /\
  succeeded (run_trace (quiet_world {["publish" := "true"]} true)) = true.
Proof.
  assert (H : resolved (quiet_world {["publish" := "true"]} true)
              = inr publishing_inputs) by (vm_compute; reflexivity).
  apply (proj2 (publish_without_credentials publishing_inputs eq_refl
                  (or_introl eq_refl) _ H)); vm_compute; reflexivity.
Defined.

(** ** The same properties of [src/index.ts] *)

Lemma index_ts_getInputs_pure (w : World) (tr : Trace) :
  IndexTs.getInputs w tr = (inr (IndexTs.resolved w), tr).
Proof. reflexivity. Qed.

Lemma index_ts_run_trace (w : World) :
  IndexTs.run_trace w = IndexTs.run_from (IndexTs.resolved w) w.
Proof. reflexivity. Qed.

Lemma index_ts_run_from_post (inputs : IndexTs.ActionInputs) (w : World)
    (Q : Trace -> Prop) :
  post (try_catch (IndexTs.run_stages inputs) run_catch) w []
    (fun _ tr => Q tr) ->
  Q (IndexTs.run_from inputs w).
Proof. exact id. Qed.

(** X14: defaults and flag conventions of the [getInputs] of
    [src/index.ts] (as in C9; the default target differs and there is
    no verbosity flag). *)
Lemma index_ts_input_defaults (w : World) :
  let raw := getInput w in
  let inputs := IndexTs.resolved w in
  (raw "kernel-path" = "" -> IndexTs.kernelPath inputs = ".") /\
  (raw "build-target" = "" ->
   IndexTs.buildTarget inputs
     = "redistributable.torch29-cxx11-cu126-x86_64-linux") /\
  (raw "artifact-name" = "" -> IndexTs.artifactName inputs = "kernel") /\
  (raw "cachix-name" = "" -> IndexTs.cachixName inputs = "huggingface") /\
  (raw "cachix-auth-token" = "" -> IndexTs.cachixAuthToken inputs = "") /\
  (raw "nix-max-jobs" = "" -> IndexTs.nixMaxJobs inputs = "4") /\
  (raw "nix-cores" = "" -> IndexTs.nixCores inputs = "12") /\
  (raw "hf-token" = "" -> IndexTs.hfToken inputs = "") /\
  (raw "hf-repo" = "" -> IndexTs.hfRepo inputs = "") /\
  (IndexTs.uploadArtifact inputs = true <-> raw "upload-artifact" <> "false") /\
  (IndexTs.publish inputs = true <-> raw "publish" = "true").
Proof.
  intros raw inputs. subst inputs. unfold IndexTs.resolved. simpl.
  fold raw.
  repeat split;
    try (intros ->; reflexivity);
    try apply neqb_true; try apply String.eqb_eq.
Qed.

(** X15: in [src/index.ts] a missing result link is always an error (as
    in C3): the run fails with the message of [buildKernel], sets no
    output and runs no later stage. *)
Lemma index_ts_missing_result (w : World) :
  some_of result_missing (IndexTs.run_trace w) = true ->
  failures (IndexTs.run_trace w)
    = ["Build result not found at "
       +:+ result_link w (IndexTs.kernelPath (IndexTs.resolved w))] /\
  succeeded (IndexTs.run_trace w) = false /\
  outputs (IndexTs.run_trace w) = [] /\
  none_of is_packaging (IndexTs.run_trace w) = true /\
  none_of is_artifact_upload (IndexTs.run_trace w) = true /\
  none_of is_hub_publish (IndexTs.run_trace w) = true.
Proof.
  rewrite index_ts_run_trace. apply index_ts_run_from_post.
  run_symbolically; intros Hmiss; try refuted; repeat split; reflexivity.
Qed.

(** X16: in [src/index.ts] too the outputs are set right after the
    copy, so a failed upload or publish leaves them set, and any other
    failure leaves them unset (as in C4, amended). *)
Lemma index_ts_failed_run_outputs (w : World) :
  (succeeded (IndexTs.run_trace w) = false ->
   some_of distribution_failure (IndexTs.run_trace w) = false ->
   outputs (IndexTs.run_trace w) = []) /\
  (some_of distribution_failure (IndexTs.run_trace w) = true ->
   succeeded (IndexTs.run_trace w) = false /\
   outputs (IndexTs.run_trace w)
     = [("kernel-path",
         IndexTs.artifactName (IndexTs.resolved w) +:+ "-output");
        ("artifact-name", IndexTs.artifactName (IndexTs.resolved w))]).
Proof.
  rewrite index_ts_run_trace. apply index_ts_run_from_post.
  run_symbolically;
    (split; [intros Hfail Hdist|intros Hdist]); try refuted;
    repeat split; reflexivity.
Qed.

Lemma index_ts_upload_failure_keeps_outputs :
  succeeded (IndexTs.run_trace (upload_rejecting_world ∅)) = false /\
  outputs (IndexTs.run_trace (upload_rejecting_world ∅))
    = [("kernel-path", "kernel-output"); ("artifact-name", "kernel")].
Proof. split; reflexivity. Qed.

(** X17: in [src/index.ts], without execution modes and direct upload,
    a publish request without credentials always ends in the warning
    when no call fails and the result link exists (as in C6). *)
Lemma index_ts_publish_without_credentials (w : World) :
  IndexTs.publish (IndexTs.resolved w) = true ->
  IndexTs.hfToken (IndexTs.resolved w) = ""
  \/ IndexTs.hfRepo (IndexTs.resolved w) = "" ->
  none_of threw (IndexTs.run_trace w) = true ->
  none_of result_missing (IndexTs.run_trace w) = true ->
  none_of is_hub_publish (IndexTs.run_trace w) = true /\
  warnings (IndexTs.run_trace w) = [publish_warning] /\
  succeeded (IndexTs.run_trace w) = true.
Proof.
  intros Hpub Hcred. rewrite index_ts_run_trace.
  generalize dependent (IndexTs.resolved w). intros inputs Hpub Hcred.
  assert (Hgate : IndexTs.publish inputs && truthy (IndexTs.hfToken inputs)
                  && truthy (IndexTs.hfRepo inputs) = false).
  { rewrite Hpub. destruct Hcred as [-> | ->]; simpl; [reflexivity|].
    apply andb_false_r. }
  apply index_ts_run_from_post. unfold IndexTs.run_stages.
  rewrite Hgate, Hpub.
  run_symbolically; intros Hok Hfound; try refuted; repeat split; reflexivity.
Qed.


(** * Further properties of the program *)

(** ** Inputs *)




(** ** The run as a whole *)

(** X3: [run] never throws: whatever the world, its promise resolves,
    because the [catch] block handles every thrown value, the one of
    [getInputs] included, and cannot throw itself. *)
Theorem run_always_resolves (w : World) :
  fst (run w []) = inr tt /\ fst (IndexTs.run w []) = inr tt.
Proof.
  assert (H : forall m : M unit, fst (try_catch m run_catch w []) = inr tt).
  { intros m. unfold try_catch.
    destruct (m w []) as [[t|[]] tr]; [|reflexivity].
    now rewrite run_catch_eq. }
  split; apply H.
Qed.

(** ** Cache configuration, when it is not skipped *)

(** X4: with a cache name, [setupCachix] throws exactly when one of its
    calls is rejected; when none is, it installs [cachix] with
    [nix-env], then runs [cachix authtoken] if and only if there is a
    token, then [cachix use] for the name, and it adds
    [$HOME/.nix-profile/bin] to the path, which reads
    [undefined/.nix-profile/bin] when [HOME] is not set. *)
Theorem cachix_setup_sequence (name authToken : string) (w : World) :
  name <> "" ->
  ((exists t : Thrown, fst (setupCachix name authToken w []) = inl t) <->
   none_of threw (snd (setupCachix name authToken w [])) = false) /\
  (none_of threw (snd (setupCachix name authToken w [])) = true ->
   invocations_of "nix-env" (snd (setupCachix name authToken w []))
     = [["-iA"; "cachix"; "-f"; "https://cachix.org/api/v1/install"]] /\
   invocations_of "cachix" (snd (setupCachix name authToken w []))
     = (if truthy authToken then [["authtoken"; authToken]] else [])
       ++ [["use"; name]] /\
   In (AddPath (default "undefined" (process_env w !! "HOME")
                +:+ "/.nix-profile/bin"))
      (snd (setupCachix name authToken w []))).
Proof.
  intros Hname. apply truthy_true in Hname.
  change
    (post (setupCachix name authToken) w []
       (fun r tr =>
          ((exists t : Thrown, r = inl t) <-> none_of threw tr = false) /\
          (none_of threw tr = true ->
           invocations_of "nix-env" tr
             = [["-iA"; "cachix"; "-f"; "https://cachix.org/api/v1/install"]]
           /\
           invocations_of "cachix" tr
             = (if truthy authToken then [["authtoken"; authToken]] else [])
               ++ [["use"; name]] /\
           In (AddPath (default "undefined" (process_env w !! "HOME")
                        +:+ "/.nix-profile/bin")) tr))).
  unfold setupCachix. rewrite Hname. simpl negb. cbv iota.
  run_symbolically; (split; [split|intros Hok; try refuted]).
  all: try (intros [? Ht]; first [discriminate Ht | reflexivity]).
  all: try (intros Hf; first [refuted | eexists; reflexivity]).
  all: split; [reflexivity|split; [reflexivity|found_in_trace]].
Qed.

Lemma cachix_setup_sequence_witness :
  invocations_of "cachix"
    (snd (setupCachix "huggingface" "cachix_secret" homeless_world []))
    = [["authtoken"; "cachix_secret"]; ["use"; "huggingface"]] /\
  In (AddPath "undefined/.nix-profile/bin")
    (snd (setupCachix "huggingface" "cachix_secret" homeless_world [])).
Proof.
  destruct (cachix_setup_sequence "huggingface" "cachix_secret"
              homeless_world ltac:(discriminate)) as [_ H].
  destruct H as (_ & Hc & Hp); [vm_compute; reflexivity|].
  split; [exact Hc | exact Hp].
Defined.

(** X5: the cache setup is never skipped in a run: an empty
    [cachix-name] reads as [huggingface], so whenever the inputs are
    accepted and the installer has not failed, [cachix] is installed
    with [nix-env], once. *)
Theorem cachix_always_installed (w : World) (inputs : ActionInputs) :
  resolved w = inr inputs ->
  none_of install_failure (run_trace w) = true ->
  invocations_of "nix-env" (run_trace w)
    = [["-iA"; "cachix"; "-f"; "https://cachix.org/api/v1/install"]].
Proof.
  intros Hres. assert (Hname := resolved_cachixName _ _ Hres).
  apply truthy_true in Hname.
  rewrite (run_trace_resolved _ _ Hres). apply run_from_post.
  unfold run_stages, setupCachix. rewrite Hname. simpl negb. cbv iota.
  run_symbolically; intros Hok; try refuted; reflexivity.
Qed.

Lemma cachix_always_installed_witness :
  invocations_of "nix-env" (run_trace (quiet_world {["cachix-name" := ""]} true))
    = [["-iA"; "cachix"; "-f"; "https://cachix.org/api/v1/install"]].
Proof.
  assert (H : resolved (quiet_world {["cachix-name" := ""]} true)
              = inr default_inputs) by (vm_compute; reflexivity).
  apply (cachix_always_installed _ _ H). vm_compute. reflexivity.
Defined.

(** ** Properties of every event of a computation *)

Section AlwaysRules.
Context (w : World) (P : Event -> Prop) {A B C : Type}.











End AlwaysRules.



(** ** The build invocation *)



(** ** What the flags switch off *)

(** X7: with [upload-artifact] set to [false] the artifact upload never
    runs; and the hub publish never runs unless publishing is requested
    and both the token and the repository are set. *)
Theorem distribution_needs_flags (inputs : ActionInputs) :
  (uploadArtifact inputs = false ->
   forall w : World, none_of is_artifact_upload (run_from inputs w) = true) /\
  (publish inputs = false \/ hfToken inputs = "" \/ hfRepo inputs = "" ->
   forall w : World, none_of is_hub_publish (run_from inputs w) = true).
Proof.
  split.
  - intros Hup w. apply avoids_run_from. unfold run_stages. rewrite Hup.
    repeat avoid; reflexivity.
  - intros Hgate w.
    assert (Hoff : publish inputs && truthy (hfToken inputs)
                   && truthy (hfRepo inputs) = false).
    { destruct Hgate as [-> | [-> | ->]]; simpl.
      - reflexivity.
      - now rewrite andb_false_r.
      - now rewrite andb_false_r. }
    apply avoids_run_from. unfold run_stages. rewrite Hoff.
    repeat avoid; reflexivity.
Qed.

Lemma distribution_needs_flags_witness :
  none_of is_hub_publish (run_from publishing_inputs (quiet_world ∅ true))
    = true.
Proof.
  apply (proj2 (distribution_needs_flags publishing_inputs)).
  right. left. reflexivity.
Defined.

(** ** The artifact upload *)

(** X8: [uploadKernelArtifact] uploads under the artifact name, with
    the packaged directory as root, exactly the files that the glob
    [<directory>/**/*] returned; when the glob cannot be created or
    evaluated, nothing is uploaded. *)
Theorem artifact_upload_files
    (kernelOutputPath artifactName : string) (w : World)
    (name : string) (files : list string) (root : string)
    (r : option Thrown) :
  In (UploadArtifact name files root r)
     (snd (uploadKernelArtifact kernelOutputPath artifactName w [])) ->
  name = artifactName /\ root = kernelOutputPath /\
  In (GlobCreate (kernelOutputPath +:+ "/**/*") None)
     (snd (uploadKernelArtifact kernelOutputPath artifactName w [])) /\
  In (GlobberGlob (kernelOutputPath +:+ "/**/*") (inr files))
     (snd (uploadKernelArtifact kernelOutputPath artifactName w [])).
Proof.
  change
    (post (uploadKernelArtifact kernelOutputPath artifactName) w []
       (fun _ tr =>
          In (UploadArtifact name files root r) tr ->
          name = artifactName /\ root = kernelOutputPath /\
          In (GlobCreate (kernelOutputPath +:+ "/**/*") None) tr /\
          In (GlobberGlob (kernelOutputPath +:+ "/**/*") (inr files)) tr)).
  run_symbolically; cbv [app In]; intros H;
    repeat (destruct H as [H|H]; [try discriminate H|]); try contradiction;
    injection H as <- <- <- <-; repeat split; found_in_trace.
Qed.

Lemma artifact_upload_files_witness :
  In (GlobberGlob "kernel-output/**/*" (inr ["kernel-output/kernel.so"]))
     (snd (uploadKernelArtifact "kernel-output" "kernel"
             (quiet_world ∅ true) [])).
Proof.
  refine (proj2 (proj2 (proj2
            (artifact_upload_files "kernel-output" "kernel"
               (quiet_world ∅ true)
               "kernel" ["kernel-output/kernel.so"] "kernel-output" None
               _)))).
  vm_compute. do 3 right. left. reflexivity.
Defined.

(** ** The outcome of a run *)

(** X9: abort on the first failure.  A run succeeds exactly when no
    call was rejected and the result link was found or the mode is
    [run]; at most one call is rejected in a run; the failures reported
    are the message of the rejected call, or, when no call was rejected,
    the missing build result; and the last event of a run is the success
    line or the failure report. *)
Theorem run_outcome (inputs : ActionInputs) (w : World) :
  succeeded (run_from inputs w)
    = none_of threw (run_from inputs w)
      && (none_of result_missing (run_from inputs w)
          || match nixCommand inputs with
             | Build => false
             | Run => true
             end) /\
  length (rejections (run_from inputs w)) <= 1 /\
  failures (run_from inputs w)
    = map failure_message (rejections (run_from inputs w))
      ++ (if negb (succeeded (run_from inputs w))
             && none_of threw (run_from inputs w)
          then ["Build result not found at "
                +:+ result_link w (kernelPath inputs)]
          else []) /\
  last (run_from inputs w)
    = (if succeeded (run_from inputs w)
       then Some (Info "Action completed successfully!")
       else SetFailed <$> head (failures (run_from inputs w))).
Proof.
  apply run_from_post.
  run_symbolically;
    (split; [reflexivity|split; [|split; reflexivity]]);
    first [exact (le_n 1) | exact (le_S 0 0 (le_n 0))].
Qed.

(** X10: the outputs of a run are determined by how far it went: once
    the copy is done both are set, [kernel-path] to
    [<artifact name>-output]; a run that succeeds without a copy (direct
    upload, or run mode without a result link) sets [kernel-path] to the
    empty string; any other run sets nothing.  [artifact-name] is always
    the artifact name, and no output is set twice. *)
Theorem outputs_by_progress (inputs : ActionInputs) (w : World) :
  outputs (run_from inputs w)
    = if some_of packaged (run_from inputs w)
      then [("kernel-path", artifactName inputs +:+ "-output");
            ("artifact-name", artifactName inputs)]
      else if succeeded (run_from inputs w)
      then [("kernel-path", ""); ("artifact-name", artifactName inputs)]
      else [].
Proof.
  apply run_from_post. run_symbolically; reflexivity.
Qed.

(** X11: log groups are never nested, and a run that succeeds closes
    every group it opens; but each stage closes its group after its
    work, outside any [finally], so a run that fails leaves the group of
    the failing stage open. *)
Theorem log_groups (inputs : ActionInputs) (w : World) :
  group_nesting (run_from inputs w) = 1 /\
  length (open_groups (run_from inputs w))
    = if succeeded (run_from inputs w) then 0 else 1.
Proof.
  apply run_from_post. run_symbolically; split; reflexivity.
Qed.

(** X12: the order of the stages is fixed.  In a run in which no call
    is rejected (and, in build mode, the result link is found) the
    commands are: the installer ([curl], [sh]); the cache setup
    ([nix-env], [cachix] once or twice), unless the cache name is
    empty; the build ([nix]); then the direct upload ([nix] again) on
    the manual-upload path, and otherwise, if the result link exists,
    the copy ([cp]) and, with publishing requested and both credentials,
    the hub publish ([pip], [python]). *)
Theorem command_sequence (inputs : ActionInputs) (w : World) :
  none_of threw (run_from inputs w) = true ->
  (nixCommand inputs = Build ->
   none_of result_missing (run_from inputs w) = true) ->
  commands (run_from inputs w)
    = ["curl"; "sh"]
      ++ (if negb (truthy (cachixName inputs)) then []
          else ["nix-env"]
               ++ (if truthy (cachixAuthToken inputs) then ["cachix"]
                   else [])
               ++ ["cachix"])
      ++ ["nix"]
      ++ (if needsManualUpload inputs then ["nix"]
          else if some_of result_missing (run_from inputs w) then []
          else ["cp"]
               ++ (if publish inputs && truthy (hfToken inputs)
                      && truthy (hfRepo inputs)
                   then ["pip"; "python"] else [])).
Proof.
  apply run_from_post.
  run_symbolically; intros Hok Hfound; first [refuted | reflexivity].
Qed.

Lemma command_sequence_witness :
  commands (run_from (manual_inputs_with "hf_secret" true)
              (quiet_world ∅ true))
    = ["curl"; "sh"; "nix-env"; "cachix"; "nix"; "nix"].
Proof.
  apply (command_sequence (manual_inputs_with "hf_secret" true)
           (quiet_world ∅ true)).
  - vm_compute. reflexivity.
  - intros _. vm_compute. reflexivity.
Defined.

(** ** Publishing with credentials *)

(** X13: when publishing is requested with a token and a repository, on
    a run that is not a manual upload, finds the result link and in
    which no call is rejected, [huggingface_hub] is installed with [pip]
    and [python -c] is run once with the script that uploads the
    packaged directory [<artifact name>-output] to the repository with
    the token; no warning is emitted and the run succeeds. *)
Theorem publish_with_credentials (inputs : ActionInputs) (w : World) :
  publish inputs = true ->
  hfToken inputs <> "" ->
  hfRepo inputs <> "" ->
  needsManualUpload inputs = false ->
  none_of threw (run_from inputs w) = true ->
  none_of result_missing (run_from inputs w) = true ->
  invocations_of "pip" (run_from inputs w)
    = [["install"; "huggingface_hub"]] /\
  invocations_of "python" (run_from inputs w)
    = [["-c"; pythonScript (artifactName inputs +:+ "-output")
                (hfRepo inputs) (hfToken inputs)]] /\
  warnings (run_from inputs w) = [] /\
  succeeded (run_from inputs w) = true.
Proof.
  intros Hpub Htoken Hrepo Hmanual.
  apply truthy_true in Htoken, Hrepo.
  apply run_from_post. unfold run_stages.
  rewrite Hpub, Htoken, Hrepo, Hmanual. simpl andb. cbv iota.
  run_symbolically; intros Hok Hfound; try refuted; repeat split; reflexivity.
Qed.

Lemma publish_with_credentials_witness :
  invocations_of "pip"
    (run_from credentialed_inputs (quiet_world ∅ true))
    = [["install"; "huggingface_hub"]] /\
  succeeded (run_from credentialed_inputs (quiet_world ∅ true)) = true.
Proof.
  destruct (publish_with_credentials credentialed_inputs (quiet_world ∅ true))
    as (Hpip & _ & _ & Hok);
    try (vm_compute; reflexivity); try discriminate.
  split; [exact Hpip | exact Hok].
Defined.

(** ** Witnesses for [src/index.ts] *)

Lemma index_ts_input_defaults_witness :
  IndexTs.buildTarget (IndexTs.resolved (quiet_world ∅ true))
    = "redistributable.torch29-cxx11-cu126-x86_64-linux".
Proof.
  destruct (index_ts_input_defaults (quiet_world ∅ true))
    as (_ & Ht & _).
  apply Ht. reflexivity.
Defined.

Lemma index_ts_missing_result_witness :
  failures (IndexTs.run_trace (quiet_world ∅ false))
    = ["Build result not found at /work/result"] /\
  outputs (IndexTs.run_trace (quiet_world ∅ false)) = [].
Proof.
  destruct (index_ts_missing_result (quiet_world ∅ false))
    as (Hf & _ & Ho & _).
  - vm_compute. reflexivity.
  - split; [exact Hf | exact Ho].
Defined.

Lemma index_ts_failed_run_outputs_witness :
  succeeded (IndexTs.run_trace (upload_rejecting_world ∅)) = false /\
  outputs (IndexTs.run_trace (upload_rejecting_world ∅))
    = [("kernel-path", "kernel-output"); ("artifact-name", "kernel")].
Proof.
  destruct (proj2 (index_ts_failed_run_outputs (upload_rejecting_world ∅)))
    as [Hs Ho]; [vm_compute; reflexivity|].
  split; [exact Hs | exact Ho].
Defined.

Lemma index_ts_publish_without_credentials_witness :
  warnings (IndexTs.run_trace (quiet_world {["publish" := "true"]} true))
    = [publish_warning] /\
  succeeded (IndexTs.run_trace (quiet_world {["publish" := "true"]} true))
    = true.
Proof.
  apply (index_ts_publish_without_credentials
           (quiet_world {["publish" := "true"]} true));
    try (vm_compute; reflexivity).
  left. vm_compute. reflexivity.
Defined.
